(** * jest-matcher-utils: a shallow embedding of [src/index.js]

    The module is a flat library of helpers that build the failure messages of
    matchers: [getType] classifies a JavaScript value, [stringify] renders it
    through the external [pretty-format] package, the [ensure*] guards throw
    formatted errors, and [matcherHint] / [pluralize] build message fragments.

    JavaScript values are embedded as the inductive type [value]; a call that
    may throw returns a [completion]; the two external packages ([chalk] and
    [pretty-format]) are parameters of the development.  *)

From Stdlib Require Import String Ascii List ZArith Bool Lia DecimalString.
Import ListNotations.
Local Open Scope Z_scope.
Local Open Scope string_scope.

(** ** JavaScript values *)

(** Numbers: the integral doubles, NaN and the two infinities; [Int z] is the
    double whose value is the integer [z].  Fractional doubles are left out:
    the classifier and the guards see only that a value is a number, and the
    counts handed to [pluralize] are integral. *)
Inductive number : Type :=
| Int (z : Z)
| NaN
| Infinity (negative : bool).

(** Function objects are compared by identity.  [ThisRealmRegExp] is the
    object the identifier [RegExp] of line 66 evaluates to; every other
    function (the [RegExp] of another realm included) is an [OtherFunction]. *)
Inductive func : Type :=
| ThisRealmRegExp
| OtherFunction (name : string).

(** A value.  A [VObject] carries what the module and its collaborators
    observe of it: its built-in class, the value read by [o.constructor] (own
    or inherited, [VUndefined] when there is none), and its [toJSON]
    serialization hook, a method that is inherited or not enumerable.
    [VBigInt] stands for the values whose [typeof] is none of the seven names
    [getType] tests.

    Two more shapes are values on which an operation of the module throws.
    [VAccessorObject name thrown toJSON] is the object literal
    [{ get [name]() { throw thrown } }]: an ordinary object whose own
    enumerable property [name] is an accessor whose getter throws, every
    other property (its [constructor], when [name] is another name) being
    inherited from [Object.prototype].  [VRevokedProxy] is a proxy of an
    ordinary object after its revocation: [typeof] still answers "object",
    and every other operation on it is a TypeError. *)
Inductive value : Type :=
| VUndefined
| VNull
| VBoolean (b : bool)
| VNumber (n : number)
| VString (s : string)
| VSymbol (description : string)
| VFunction (f : func)
| VBigInt (z : Z)
| VObject (c : class) (constructor : value) (toJSON : hook)
| VAccessorObject (name : string) (thrown : value) (toJSON : hook)
| VRevokedProxy
with class : Type :=
| Ordinary
| ArrayExotic (elements : list value)
| RegExpObject (source : string)
with hook : Type :=
| NoHook
| HookReturns (replacement : value)
| HookThrows (thrown : value).

(** ** Completions: a call either returns or throws *)

Inductive exn : Type :=
| Error (message : string)         (* [new Error(message)] *)
| UnknownTypeError (offending : value)
    (* the [Error] of line 75, whose message interpolates the value *)
| TypeError (message : string)     (* raised by the language itself *)
| Thrown (payload : value).        (* anything thrown by user code *)

Inductive completion (A : Type) : Type :=
| Return (a : A)
| Throw (e : exn).
Arguments Return {A} a.
Arguments Throw {A} e.

Definition bind {A B : Type} (c : completion A) (k : A -> completion B)
  : completion B :=
  match c with
  | Return a => k a
  | Throw e => Throw e
  end.

(** [try { c } catch (e) { handler e }] *)
Definition try_catch {A : Type} (c : completion A) (handler : exn -> completion A)
  : completion A :=
  match c with
  | Return a => Return a
  | Throw e => handler e
  end.

Notation "x <- c ;; k" := (bind c (fun x => k))
  (at level 61, c at next level, right associativity).

(** ** Operators of the language used by the module *)

Definition LF : string := String (ascii_of_nat 10) EmptyString.

(** The [typeof] operator. *)
Definition typeof (v : value) : string :=
  match v with
  | VUndefined => "undefined"
  | VNull => "object"
  | VBoolean _ => "boolean"
  | VNumber _ => "number"
  | VString _ => "string"
  | VSymbol _ => "symbol"
  | VFunction _ => "function"
  | VBigInt _ => "bigint"
  | VObject _ _ _ => "object"
  | VAccessorObject _ _ _ => "object"
  | VRevokedProxy => "object"
  end.

(** [v === null] *)
Definition is_null (v : value) : bool :=
  match v with
  | VNull => true
  | _ => false
  end.

(** Whether [v] is an array: what [Array.isArray(v)] answers when it returns. *)
Definition Array_isArray (v : value) : bool :=
  match v with
  | VObject (ArrayExotic _) _ _ => true
  | _ => false
  end.

(** The call [Array.isArray(v)]: a TypeError on a revoked proxy. *)
Definition call_Array_isArray (v : value) : completion bool :=
  match v with
  | VRevokedProxy =>
      Throw (TypeError "Cannot perform 'IsArray' on a proxy that has been revoked")
  | _ => Return (Array_isArray v)
  end.

(** [v === RegExp]: identity with this realm's [RegExp] constructor. *)
Definition is_RegExp (v : value) : bool :=
  match v with
  | VFunction ThisRealmRegExp => true
  | _ => false
  end.

(** [v.constructor].  Reading a property of [undefined] or [null] is a
    TypeError; a primitive answers through its wrapper's prototype; the read
    runs the getter of an accessor property, and throws what it throws. *)
Definition get_constructor (v : value) : completion value :=
  match v with
  | VUndefined => Throw (TypeError "Cannot read property 'constructor' of undefined")
  | VNull => Throw (TypeError "Cannot read property 'constructor' of null")
  | VBoolean _ => Return (VFunction (OtherFunction "Boolean"))
  | VNumber _ => Return (VFunction (OtherFunction "Number"))
  | VString _ => Return (VFunction (OtherFunction "String"))
  | VSymbol _ => Return (VFunction (OtherFunction "Symbol"))
  | VFunction _ => Return (VFunction (OtherFunction "Function"))
  | VBigInt _ => Return (VFunction (OtherFunction "BigInt"))
  | VObject _ constructor _ => Return constructor
  | VAccessorObject name thrown _ =>
      if name =? "constructor" then Throw (Thrown thrown)
      else Return (VFunction (OtherFunction "Object"))
  | VRevokedProxy =>
      Throw (TypeError "Cannot perform 'get' on a proxy that has been revoked")
  end.

(** Decimal digits of an integer, with a leading [-] when negative. *)
Definition decimal (z : Z) : string := NilZero.string_of_int (Z.to_int z).

(** Number-to-string conversion, as string concatenation applies it.  An
    integer of the safe range (at most 2^53 in absolute value) is printed by
    its decimal digits.  Beyond that range the language prints the shortest
    digits that read back as the same double, in exponent notation from 10^21
    on; that part of the conversion is not modelled, and is the parameter
    [beyond_safe]. *)
Section NumberToString.

Variable beyond_safe : Z -> string.

Definition Number_toString (n : number) : string :=
  match n with
  | Int z => if (Z.abs z <=? 2 ^ 53)%Z then decimal z else beyond_safe z
  | NaN => "NaN"
  | Infinity false => "Infinity"
  | Infinity true => "-Infinity"
  end.

End NumberToString.

(** [array[n]] for an array of strings and a number used as the key:
    [None] is [undefined], the answer for every key that is no index of the
    array. *)
Definition element_at (array : list string) (n : number) : option string :=
  match n with
  | Int z =>
      if ((0 <=? z) && (z <? Z.of_nat (List.length array)))%Z
      then nth_error array (Z.to_nat z)
      else None
  | _ => None
  end.

(** [n === m] on numbers. *)
Definition number_strict_equal (n m : number) : bool :=
  match n, m with
  | Int a, Int b => (a =? b)%Z
  | Infinity a, Infinity b => Bool.eqb a b
  | _, _ => false
  end.

(** Truthiness of a string: every string but the empty one. *)
Definition string_truthy (s : string) : bool :=
  match s with
  | EmptyString => false
  | String _ _ => true
  end.

(** Truthiness of an optional string argument ([None] is [undefined]). *)
Definition truthy (s : option string) : bool :=
  match s with
  | Some s => string_truthy s
  | None => false
  end.

(** ** The module *)

(** The tags of the Flow type [ValueType] (lines 16-26). *)
Definition ValueType : list string :=
  ["array"; "boolean"; "function"; "null"; "number"; "object"; "regexp";
   "string"; "symbol"; "undefined"].

Definition NUMBERS : list string :=
  ["zero"; "one"; "two"; "three"; "four"; "five"; "six"; "seven"; "eight";
   "nine"; "ten"; "eleven"; "twelve"; "thirteen"].

(** Lines 50-76. *)
Definition getType (value : value) : completion string :=
  if typeof value =? "undefined" then Return "undefined"
  else if is_null value then Return "null"
  else
    array <- call_Array_isArray value ;;
    if array then Return "array"
    else if typeof value =? "boolean" then Return "boolean"
    else if typeof value =? "function" then Return "function"
    else if typeof value =? "number" then Return "number"
    else if typeof value =? "string" then Return "string"
    else if typeof value =? "object" then
      constructor <- get_constructor value ;;
      if is_RegExp constructor then Return "regexp" else Return "object"
    else if typeof value =? "symbol" then Return "symbol"
    else Throw (UnknownTypeError value).

(** ** The external packages *)

(** The three [chalk] styles the module uses; each maps a string to a string. *)
Record Chalk : Type := {
  green : string -> string;
  red : string -> string;
  dim : string -> string
}.

(** The options object handed to [prettyFormat].  [callToJSON] is [None] when
    the caller leaves it out, which the first call of [stringify] does. *)
Record options : Type := {
  callToJSON : option bool;
  maxDepth : nat;
  min : bool
}.

Section MatcherUtils.

Variable chalk : Chalk.
Variable prettyFormat : value -> options -> completion string.

(** Lines 28-29. *)
Definition EXPECTED_COLOR : string -> string := green chalk.
Definition RECEIVED_COLOR : string -> string := red chalk.

(** Lines 78-91. *)
Definition stringify (object : value) : completion string :=
  try_catch
    (prettyFormat object {| callToJSON := None; maxDepth := 10; min := true |})
    (fun e =>
       prettyFormat object
         {| callToJSON := Some false; maxDepth := 10; min := true |}).

(** Lines 93-94. *)
Definition printReceived (object : value) : completion string :=
  s <- stringify object ;; Return (RECEIVED_COLOR s).

Definition printExpected (value : value) : completion string :=
  s <- stringify value ;; Return (EXPECTED_COLOR s).

(** Lines 96-109. *)
Definition printWithType (name : string) (received : value)
    (print : value -> completion string) : completion string :=
  type <- getType received ;;
  printed <- print received ;;
  Return
    (name ++ ":" ++
     (if negb (type =? "null") && negb (type =? "undefined")
      then LF ++ "  " ++ type ++ ": "
      else " ") ++
     printed).

(** Lines 153-163.  An argument that is [None] (left out, or [undefined])
    takes its default; an empty string does not. *)
Definition matcherHint (matcherName : string)
    (received expected : option string) : string :=
  let received := match received with Some r => r | None => "received" end in
  let expected := match expected with Some e => e | None => "expected" end in
  dim chalk "expect(" ++ RECEIVED_COLOR received ++
  dim chalk (")" ++ matcherName ++ "(") ++
  EXPECTED_COLOR expected ++ dim chalk ")".

(** [matcherName || (matcherName = fallback)] *)
Definition or_default (matcherName : option string) (fallback : string) : string :=
  match matcherName with
  | Some m => if string_truthy m then m else fallback
  | None => fallback
  end.

(** Lines 111-120. *)
Definition ensureNoExpected (expected : value) (matcherName : option string)
  : completion unit :=
  let matcherName := or_default matcherName "This" in
  if negb (typeof expected =? "undefined") then
    got <- printWithType "Got" expected printExpected ;;
    Throw (Error
      (matcherHint ("[.not]" ++ matcherName) None (Some "") ++ LF ++ LF ++
       "Matcher does not accept any arguments." ++ LF ++
       got))
  else Return tt.

(** Lines 122-131. *)
Definition ensureActualIsNumber (actual : value) (matcherName : option string)
  : completion unit :=
  let matcherName := or_default matcherName "This matcher" in
  if negb (typeof actual =? "number") then
    got <- printWithType "Received" actual printReceived ;;
    Throw (Error
      (matcherHint ("[.not]" ++ matcherName) None None ++ LF ++ LF ++
       "Actual value must be a number." ++ LF ++
       got))
  else Return tt.

(** Lines 133-142. *)
Definition ensureExpectedIsNumber (expected : value) (matcherName : option string)
  : completion unit :=
  let matcherName := or_default matcherName "This matcher" in
  if negb (typeof expected =? "number") then
    got <- printWithType "Got" expected printExpected ;;
    Throw (Error
      (matcherHint ("[.not]" ++ matcherName) None None ++ LF ++ LF ++
       "Expected value must be a number." ++ LF ++
       got))
  else Return tt.

(** Lines 144-147. *)
Definition ensureNumbers (actual expected : value) (matcherName : option string)
  : completion unit :=
  _ <- ensureActualIsNumber actual matcherName ;;
  ensureExpectedIsNumber expected matcherName.

End MatcherUtils.

(** Lines 149-151.  [NUMBERS[count] || count]: a missing or empty entry gives
    way to the count itself, which the concatenation turns into a string. *)
Section Pluralize.

Variable beyond_safe : Z -> string.

Definition pluralize (word : string) (count : number) : string :=
  (match element_at NUMBERS count with
   | Some spelled =>
       if string_truthy spelled then spelled
       else Number_toString beyond_safe count
   | None => Number_toString beyond_safe count
   end) ++ " " ++ word ++
  (if number_strict_equal count (Int 1) then "" else "s").

End Pluralize.

(** ** Instances of the external packages *)

(** [chalk] when the output is not a color-capable destination: every style
    hands its argument back. *)
Definition passThrough : Chalk :=
  {| green := fun s => s; red := fun s => s; dim := fun s => s |}.

Definition DQUOTE : string := String (ascii_of_nat 34) EmptyString.

(** [c] over every element, stopping at the first throw. *)
Fixpoint for_each {A B : Type} (c : A -> completion B) (items : list A)
  : completion (list B) :=
  match items with
  | [] => Return []
  | item :: rest =>
      b <- c item ;;
      bs <- for_each c rest ;;
      Return (b :: bs)
  end.

(** A small stand-in for the structural printer, used where a statement needs
    a concrete collaborator.  It follows the order of work of a printer of
    object graphs.  Values printed at sight come first: primitives, functions,
    regular expressions, the empty array (named after its constructor); a
    BigInt, for which it has no case, comes out as "undefined", and a revoked
    proxy cannot even be asked its class.  An object is then entered, unless
    [depth] levels have been entered already: with [hooks] its [toJSON] is
    read and called, and what it returns is printed in its place; otherwise
    the elements of an array are printed in turn, and the own enumerable
    properties of an object are read, which runs the getter of an accessor.
    Numbers beyond the safe range are printed by their exact digits. *)
Definition BACKSLASH : string := String (ascii_of_nat 92) EmptyString.

Fixpoint escape (s : string) : string :=
  match s with
  | EmptyString => EmptyString
  | String c rest =>
      if (Ascii.eqb c (ascii_of_nat 34) || Ascii.eqb c (ascii_of_nat 92))%bool
      then BACKSLASH ++ String c (escape rest)
      else String c (escape rest)
  end.

Definition function_name (f : func) : string :=
  match f with
  | ThisRealmRegExp => "RegExp"
  | OtherFunction name => name
  end.

(** [constructor.name] *)
Definition constructor_name (constructor : value) : completion string :=
  match constructor with
  | VUndefined => Throw (TypeError "Cannot read property 'name' of undefined")
  | VNull => Throw (TypeError "Cannot read property 'name' of null")
  | VFunction f => Return (function_name f)
  | _ => Return "undefined"
  end.

Fixpoint render (hooks : bool) (depth : nat) (v : value) : completion string :=
  match v with
  | VUndefined => Return "undefined"
  | VNull => Return "null"
  | VBoolean b => Return (if b then "true" else "false")
  | VNumber n => Return (Number_toString decimal n)
  | VString s => Return (DQUOTE ++ escape s ++ DQUOTE)
  | VSymbol description => Return ("Symbol(" ++ description ++ ")")
  | VFunction f =>
      Return (if function_name f =? "" then "[Function anonymous]"
              else "[Function " ++ function_name f ++ "]")
  | VBigInt _ => Return "undefined"
  | VRevokedProxy =>
      Throw (TypeError "Cannot perform 'IsArray' on a proxy that has been revoked")
  | VObject (RegExpObject source) _ _ => Return ("/" ++ source ++ "/")
  | VObject (ArrayExotic []) constructor _ =>
      name <- constructor_name constructor ;;
      Return (name ++ " []")
  | VObject c _ toJSON =>
      match depth with
      | O => Return (if Array_isArray v then "[Array]" else "[Object]")
      | S depth' =>
          match (if hooks then toJSON else NoHook) with
          | HookThrows e => Throw (Thrown e)
          | HookReturns replacement => render hooks depth' replacement
          | NoHook =>
              match c with
              | ArrayExotic elements =>
                  items <- for_each (render hooks depth') elements ;;
                  Return ("[" ++ String.concat ", " items ++ "]")
              | _ => Return "{}"
              end
          end
      end
  | VAccessorObject name thrown toJSON =>
      match depth with
      | O => Return "[Object]"
      | S depth' =>
          if hooks && (name =? "toJSON") then Throw (Thrown thrown)
          else
            match (if hooks then toJSON else NoHook) with
            | HookThrows e => Throw (Thrown e)
            | HookReturns replacement => render hooks depth' replacement
            | NoHook => Throw (Thrown thrown)
            end
      end
  end.

(** The stand-in collaborator: hooks are called unless [callToJSON] is
    [false], and [maxDepth] levels are entered.  It prints compactly, as every
    call of the module asks with [min: true]. *)
Definition samplePrettyFormat (v : value) (o : options) : completion string :=
  render (match callToJSON o with Some false => false | _ => true end)
    (maxDepth o) v.

(** ** Vocabulary of the statements *)

(** The [typeof] names [getType] tests for. *)
Definition recognized (v : value) : bool :=
  existsb (String.eqb (typeof v))
    ["undefined"; "object"; "boolean"; "function"; "number"; "string"; "symbol"].

(** [v.constructor === RegExp] for an object, [false] for any other value. *)
Definition constructor_is_RegExp (v : value) : bool :=
  match v with
  | VObject _ constructor _ => is_RegExp constructor
  | _ => false
  end.

(** What [getType] inspects of a value. *)
Definition observations (v : value) : string * bool * bool * bool :=
  (typeof v, is_null v, Array_isArray v, constructor_is_RegExp v).

(** The runtime kind of a value: its language type, the object type split by
    built-in class.  The properties of an object, [constructor] among them,
    are no part of its kind. *)
Inductive kind : Type :=
| KUndefined | KNull | KBoolean | KNumber | KString | KSymbol | KFunction
| KBigInt | KObject | KArray | KRegExp | KProxy.

Definition kind_of (v : value) : kind :=
  match v with
  | VUndefined => KUndefined
  | VNull => KNull
  | VBoolean _ => KBoolean
  | VNumber _ => KNumber
  | VString _ => KString
  | VSymbol _ => KSymbol
  | VFunction _ => KFunction
  | VBigInt _ => KBigInt
  | VObject Ordinary _ _ => KObject
  | VObject (ArrayExotic _) _ _ => KArray
  | VObject (RegExpObject _) _ _ => KRegExp
  | VAccessorObject _ _ _ => KObject
  | VRevokedProxy => KProxy
  end.

(** The precedence list of the classifier as the specification words it
    (section 4.1): each rule is a test and the tag it awards, the first rule
    whose test holds wins, and no rule means the classification error.  A
    test or a tag that has to run code of the value may throw, and the
    classification then throws the same. *)
Definition rule : Type := (value -> completion bool) * (value -> completion string).

Definition precedence : list rule :=
  [ (fun v => Return (typeof v =? "undefined"), fun _ => Return "undefined");
    (fun v => Return (is_null v), fun _ => Return "null");
    (call_Array_isArray, fun _ => Return "array");
    (fun v => Return (typeof v =? "boolean"), fun _ => Return "boolean");
    (fun v => Return (typeof v =? "function"), fun _ => Return "function");
    (fun v => Return (typeof v =? "number"), fun _ => Return "number");
    (fun v => Return (typeof v =? "string"), fun _ => Return "string");
    (fun v => Return (typeof v =? "object"),
     fun v =>
       constructor <- get_constructor v ;;
       Return (if is_RegExp constructor then "regexp" else "object"));
    (fun v => Return (typeof v =? "symbol"), fun _ => Return "symbol") ].

Fixpoint first_match (rules : list rule) (v : value) : completion string :=
  match rules with
  | [] => Throw (UnknownTypeError v)
  | (test, tag) :: rest =>
      holds <- test v ;;
      if holds then tag v else first_match rest v
  end.

Definition classify (v : value) : completion string :=
  first_match precedence v.

(** The checks of [getType] that run code of the value complete on [v]:
    [Array.isArray(v)] returns and, when [v] is a non-null object that is no
    array, reading [v.constructor] returns. *)
Definition checks_complete (v : value) : Prop :=
  (exists answer, call_Array_isArray v = Return answer) /\
  (typeof v = "object" -> is_null v = false -> Array_isArray v = false ->
   exists constructor, get_constructor v = Return constructor).

(** Values used in the examples.  [array_1_2] is [[1, 2]], [regexp_a] is
    [/a/], [regexp_a_foreign] is a regular expression made in another realm,
    [regexp_lookalike] is [Object.create(RegExp.prototype)], [bare_object] is
    [Object.create(null)]. *)
Definition Array_constructor : value := VFunction (OtherFunction "Array").
Definition Object_constructor : value := VFunction (OtherFunction "Object").
Definition RegExp : value := VFunction ThisRealmRegExp.
Definition foreign_RegExp : value := VFunction (OtherFunction "RegExp").

Definition array_1_2 : value :=
  VObject (ArrayExotic [VNumber (Int 1); VNumber (Int 2)]) Array_constructor NoHook.
Definition regexp_a : value := VObject (RegExpObject "a") RegExp NoHook.
Definition regexp_a_foreign : value := VObject (RegExpObject "a") foreign_RegExp NoHook.
Definition plain_object : value := VObject Ordinary Object_constructor NoHook.
Definition regexp_lookalike : value := VObject Ordinary RegExp NoHook.
Definition bare_object : value := VObject Ordinary VUndefined NoHook.

(** An array with a hook that throws, [hooked_array]; the object
    [{ get boom() { throw "getter" } }], without a hook ([booby_trapped]) and
    with a hook that throws "hook" ([booby_trapped_hooked]); and the object
    [{ get constructor() { throw "getter" } }]. *)
Definition booby_trapped : value :=
  VAccessorObject "boom" (VString "getter") NoHook.
Definition booby_trapped_hooked : value :=
  VAccessorObject "boom" (VString "getter") (HookThrows (VString "hook")).
Definition constructor_trapped : value :=
  VAccessorObject "constructor" (VString "getter") NoHook.
Definition hooked_array : value :=
  VObject (ArrayExotic [VNumber (Int 1); VBoolean true]) Array_constructor
    (HookThrows (VString "boom")).

(** * Properties *)

(** ** Strings and completions *)

Lemma append_assoc (a b c : string) : (a ++ b) ++ c = a ++ (b ++ c).
Proof.
  induction a as [|ch a IH]; simpl.
  - reflexivity.
  - now rewrite IH.
Qed.

Lemma prefix_append (a b : string) : prefix a (a ++ b) = true.
Proof.
  induction a as [|ch a IH]; simpl.
  - destruct b; reflexivity.
  - destruct (ascii_dec ch ch) as [_|Hneq]; [exact IH | contradiction].
Qed.

(** ** The classifier *)

(** [getType] case by case, over the shape of the value. *)
Lemma getType_VObject (c : class) (constructor : value) (toJSON : hook) :
  getType (VObject c constructor toJSON) =
  Return (if Array_isArray (VObject c constructor toJSON) then "array"
          else if is_RegExp constructor then "regexp" else "object").
Proof.
  destruct c; unfold getType; simpl;
    try destruct (is_RegExp constructor); reflexivity.
Qed.

Lemma getType_VAccessorObject (name : string) (thrown : value) (toJSON : hook) :
  getType (VAccessorObject name thrown toJSON) =
  if name =? "constructor" then Throw (Thrown thrown) else Return "object".
Proof.
  unfold getType; simpl. destruct (name =? "constructor"); reflexivity.
Qed.

Lemma checks_complete_VAccessorObject (name : string) (thrown : value)
    (toJSON : hook) :
  checks_complete (VAccessorObject name thrown toJSON) ->
  (name =? "constructor") = false.
Proof.
  intros [_ Hread].
  destruct (Hread eq_refl eq_refl eq_refl) as [constructor Hconstructor].
  simpl in Hconstructor.
  destruct (name =? "constructor"); [discriminate Hconstructor | reflexivity].
Qed.

Lemma checks_complete_VRevokedProxy : ~ checks_complete VRevokedProxy.
Proof.
  intros [[answer Hanswer] _]. discriminate Hanswer.
Qed.

Lemma getType_checked (v : value) :
  recognized v = true ->
  checks_complete v ->
  exists tag, getType v = Return tag /\ In tag ValueType.
Proof.
  destruct v as [| |b|n|s|d|f|z|c ctor hk|name thrown hk|]; intros Hrec Hchecks;
    try discriminate Hrec;
    try (eexists; split; [reflexivity | simpl; tauto]).
  - rewrite getType_VObject.
    eexists; split; [reflexivity|].
    destruct (Array_isArray _), (is_RegExp ctor); simpl; tauto.
  - rewrite getType_VAccessorObject,
      (checks_complete_VAccessorObject _ _ _ Hchecks).
    eexists; split; [reflexivity | simpl; tauto].
  - destruct (checks_complete_VRevokedProxy Hchecks).
Qed.

Lemma getType_unrecognized (v : value) :
  recognized v = false -> getType v = Throw (UnknownTypeError v).
Proof.
  destruct v; intro Hrec; try discriminate Hrec; reflexivity.
Qed.

Lemma getType_observations (v w : value) :
  recognized v = true ->
  checks_complete v ->
  checks_complete w ->
  observations w = observations v ->
  getType w = getType v.
Proof.
  intros Hrec Hv Hw Hobs. unfold observations in Hobs.
  injection Hobs as Htypeof Hnull Harray Hctor.
  destruct v as [| |b|n|s|d|f|z|c ctor hk|name thrown hk|];
    try discriminate Hrec;
    try destruct (checks_complete_VRevokedProxy Hv);
    destruct w as [| |b'|n'|s'|d'|f'|z'|c' ctor' hk'|name' thrown' hk'|];
    try discriminate Htypeof; try discriminate Hnull;
    try destruct (checks_complete_VRevokedProxy Hw);
    try reflexivity;
    rewrite ?getType_VObject, ?getType_VAccessorObject,
      ?(checks_complete_VAccessorObject _ _ _ Hv),
      ?(checks_complete_VAccessorObject _ _ _ Hw);
    try destruct c; try destruct c'; cbn in Harray, Hctor |- *;
    try discriminate Harray;
    try (rewrite Hctor; reflexivity);
    try (rewrite <- Hctor; reflexivity);
    reflexivity.
Qed.

Lemma getType_check_throws (v : value) (e : exn) :
  typeof v = "object" ->
  is_null v = false ->
  (call_Array_isArray v = Throw e \/
   (call_Array_isArray v = Return false /\ get_constructor v = Throw e)) ->
  getType v = Throw e.
Proof.
  intros Htypeof Hnull Hthrows.
  destruct v as [| |b|n|s|d|f|z|c ctor hk|name thrown hk|];
    try discriminate Htypeof; try discriminate Hnull.
  - destruct Hthrows as [H|[_ H]]; discriminate H.
  - rewrite getType_VAccessorObject.
    destruct Hthrows as [H|[_ H]]; [discriminate H|].
    simpl in H. destruct (name =? "constructor"); [|discriminate H].
    injection H as <-. reflexivity.
  - destruct Hthrows as [H|[H _]]; [|discriminate H].
    injection H as <-. reflexivity.
Qed.

Lemma getType_classify (v : value) : getType v = classify v.
Proof.
  destruct v as [| |b|n|s|d|f|z|c ctor hk|name thrown hk|]; try reflexivity.
  - rewrite getType_VObject.
    destruct c; unfold classify; simpl;
      try destruct (is_RegExp ctor); reflexivity.
  - rewrite getType_VAccessorObject. unfold classify; simpl.
    destruct (name =? "constructor"); reflexivity.
Qed.

(** C2, as stated, fails on the code.  [getType] does not return a tag for
    every value: on a value whose [typeof] is none of the names it tests (a
    BigInt) it reaches the throw of line 75.  And the tag is not a function of
    the runtime kind alone: two regular expressions, one carrying this realm's
    [RegExp] as constructor and one carrying another realm's, are tagged
    "regexp" and "object"; two ordinary objects are tagged "object" and
    "regexp" according to their [constructor] property. *)
Lemma getType_not_total_nor_by_kind :
  (forall tag, getType (VBigInt 1) <> Return tag) /\
  getType (VBigInt 1) = Throw (UnknownTypeError (VBigInt 1)) /\
  (kind_of regexp_a = kind_of regexp_a_foreign /\
   getType regexp_a = Return "regexp" /\
   getType regexp_a_foreign = Return "object") /\
  (kind_of plain_object = kind_of regexp_lookalike /\
   getType plain_object = Return "object" /\
   getType regexp_lookalike = Return "regexp").
Proof.
  split; [intros tag H; discriminate H|].
  repeat split; reflexivity.
Qed.

(** C2, amended: for every value [v] whose [typeof] is one of the seven names
    [getType] tests (undefined, object, boolean, function, number, string,
    symbol) and on which the checks that run code of the value complete
    ([Array.isArray(v)] returns and, for a non-null object that is no array,
    reading [v.constructor] returns), [getType v] returns a tag of the closed
    set [ValueType] and does not throw; the tag is determined by what
    [getType] inspects ([typeof v], [v === null], [Array.isArray(v)] and, for
    an object, whether [v.constructor === RegExp]), so any such [w] agreeing
    with [v] on these gets the same tag; [[1,2]], [null], [/a/], [undefined]
    are tagged "array", "null", "regexp", "undefined".  The unknown-type
    error is thrown for exactly the values whose [typeof] is none of the
    seven names, and when one of the two checks throws on a non-null object,
    [getType] throws the same exception. *)
Theorem getType_total_on_recognized (v w : value) :
  recognized v = true ->
  checks_complete v ->
  (exists tag, getType v = Return tag /\ In tag ValueType) /\
  (forall e, getType v <> Throw e) /\
  (checks_complete w -> observations w = observations v ->
   getType w = getType v) /\
  (forall u, recognized u = false <-> getType u = Throw (UnknownTypeError u)) /\
  (forall u e,
     typeof u = "object" -> is_null u = false ->
     call_Array_isArray u = Throw e \/
     (call_Array_isArray u = Return false /\ get_constructor u = Throw e) ->
     getType u = Throw e) /\
  getType array_1_2 = Return "array" /\
  getType VNull = Return "null" /\
  getType regexp_a = Return "regexp" /\
  getType VUndefined = Return "undefined".
Proof.
  intros Hrec Hchecks.
  destruct (getType_checked v Hrec Hchecks) as [tag [Htag Hin]].
  split; [exists tag; split; assumption|].
  split; [intros e He; rewrite Htag in He; discriminate He|].
  split; [intros Hw Hobs; apply getType_observations; assumption|].
  split.
  { intro u. split; [apply getType_unrecognized|].
    intro Hthrows.
    destruct u as [| |b|n|s|d|f|z|c ctor hk|name thrown hk|];
      try reflexivity; try discriminate Hthrows.
    - rewrite getType_VObject in Hthrows. discriminate Hthrows.
    - rewrite getType_VAccessorObject in Hthrows.
      destruct (name =? "constructor"); discriminate Hthrows. }
  split; [exact getType_check_throws|].
  repeat split; reflexivity.
Qed.

Lemma getType_total_on_recognized_witness :
  recognized array_1_2 = true /\
  (exists tag, getType array_1_2 = Return tag /\ In tag ValueType) /\
  getType regexp_lookalike = getType regexp_a /\
  getType constructor_trapped = Throw (Thrown (VString "getter")).
Proof.
  assert (Hchecks : forall c constructor toJSON,
            checks_complete (VObject c constructor toJSON)).
  { intros c constructor toJSON. split.
    - exists (Array_isArray (VObject c constructor toJSON)). reflexivity.
    - intros _ _ _. exists constructor. reflexivity. }
  split; [reflexivity|].
  split; [|split].
  - exact (proj1 (getType_total_on_recognized array_1_2 array_1_2 eq_refl
                    (Hchecks _ _ _))).
  - exact (proj1 (proj2 (proj2
             (getType_total_on_recognized regexp_a regexp_lookalike eq_refl
                (Hchecks _ _ _))))
             (Hchecks _ _ _) eq_refl).
  - exact (proj1 (proj2 (proj2 (proj2 (proj2
             (getType_total_on_recognized array_1_2 array_1_2 eq_refl
                (Hchecks _ _ _))))))
             constructor_trapped (Thrown (VString "getter")) eq_refl eq_refl
             (or_intror (conj eq_refl eq_refl))).
Defined.

(** C3: [getType] tests in the fixed order undefined, null, array, boolean,
    function, number, string, generic object, symbol, and the first test that
    holds decides: it agrees on every value with [classify], the first-match
    reading of the ordered rule list [precedence].  The order matters where
    tests overlap: [null] passes the generic object test yet is tagged "null",
    and an array passes it yet is tagged "array" whatever its constructor.  On
    the generic object branch the tag is "regexp" exactly when the constructor
    is identically [RegExp], and "object" otherwise. *)
Theorem getType_first_match_in_order :
  (forall v, getType v = classify v) /\
  (typeof VNull = "object" /\ getType VNull = Return "null") /\
  (forall elements constructor toJSON,
     typeof (VObject (ArrayExotic elements) constructor toJSON) = "object" /\
     getType (VObject (ArrayExotic elements) constructor toJSON) = Return "array") /\
  (forall c constructor toJSON,
     getType (VObject c constructor toJSON) =
     Return (if Array_isArray (VObject c constructor toJSON) then "array"
             else if is_RegExp constructor then "regexp" else "object")) /\
  (forall description, getType (VSymbol description) = Return "symbol").
Proof.
  split; [exact getType_classify|].
  split; [split; reflexivity|].
  split; [intros; split; reflexivity|].
  split; [exact getType_VObject|].
  reflexivity.
Qed.

(** C10: on the generic object branch the regexp tag is decided by constructor
    identity alone.  A value with [typeof] "object" that is neither [null] nor
    an array and whose [constructor] property reads as [constructor] is tagged
    "regexp" when [constructor] is identically [RegExp], whether or not the
    value is a regular expression, and "object" in every other case, without
    error: so [Object.create(RegExp.prototype)] is a "regexp", while
    [Object.create(null)], whose constructor is [undefined], and a regular
    expression of another realm are "object". *)
Theorem regexp_tag_by_constructor_identity (v constructor : value) :
  typeof v = "object" ->
  is_null v = false ->
  Array_isArray v = false ->
  get_constructor v = Return constructor ->
  getType v = Return (if is_RegExp constructor then "regexp" else "object") /\
  (kind_of regexp_lookalike = KObject /\
   getType regexp_lookalike = Return "regexp") /\
  getType bare_object = Return "object" /\
  (kind_of regexp_a_foreign = KRegExp /\
   getType regexp_a_foreign = Return "object").
Proof.
  intros Htypeof Hnull Harray Hctor.
  split; [|repeat split; reflexivity].
  destruct v as [| |b|n|s|d|f|z|c ctor hk|name thrown hk|];
    try discriminate Htypeof; try discriminate Hnull;
    try discriminate Hctor.
  - simpl in Hctor. injection Hctor as ->.
    now rewrite getType_VObject, Harray.
  - rewrite getType_VAccessorObject. simpl in Hctor.
    destruct (name =? "constructor"); [discriminate Hctor|].
    injection Hctor as <-. reflexivity.
Qed.

Lemma regexp_tag_by_constructor_identity_witness :
  getType regexp_lookalike = Return "regexp" /\
  getType bare_object = Return "object".
Proof.
  split.
  - exact (proj1 (regexp_tag_by_constructor_identity regexp_lookalike RegExp
                    eq_refl eq_refl eq_refl eq_refl)).
  - exact (proj1 (regexp_tag_by_constructor_identity bare_object VUndefined
                    eq_refl eq_refl eq_refl eq_refl)).
Defined.

(** ** The formatter *)


(** C1, as stated, fails on the code: the second call of [prettyFormat] is not
    guarded, so what it throws leaves [stringify].  Take the object
    [{ get boom() { throw "getter" }, toJSON() { throw "hook" } }].  The
    first attempt calls the hook and throws "hook"; the attempt with
    [callToJSON: false] has to read the property [boom] to print it, which
    runs the getter and throws "getter"; so [stringify] throws "getter" and
    returns no string. *)
Lemma stringify_fallback_can_throw :
  samplePrettyFormat booby_trapped_hooked
    {| callToJSON := None; maxDepth := 10; min := true |}
    = Throw (Thrown (VString "hook")) /\
  samplePrettyFormat booby_trapped_hooked
    {| callToJSON := Some false; maxDepth := 10; min := true |}
    = Throw (Thrown (VString "getter")) /\
  stringify samplePrettyFormat booby_trapped_hooked
    = Throw (Thrown (VString "getter")) /\
  (forall s, stringify samplePrettyFormat booby_trapped_hooked <> Return s).
Proof.
  split; [reflexivity|].
  split; [reflexivity|].
  split; [reflexivity|].
  intros s H. discriminate H.
Qed.

(** C1, amended: when the first [prettyFormat] attempt throws (a throwing
    [toJSON] hook is one cause), [stringify] is the outcome of a second
    attempt with [callToJSON: false] and the same [maxDepth: 10] and
    [min: true]: it returns the string that attempt produces, and throws what
    that attempt throws. *)
Theorem stringify_retries_without_hook
    (prettyFormat : value -> options -> completion string)
    (object : value) (e : exn) :
  prettyFormat object {| callToJSON := None; maxDepth := 10; min := true |}
    = Throw e ->
  stringify prettyFormat object
    = prettyFormat object
        {| callToJSON := Some false; maxDepth := 10; min := true |} /\
  (forall s,
     prettyFormat object
       {| callToJSON := Some false; maxDepth := 10; min := true |} = Return s ->
     stringify prettyFormat object = Return s) /\
  (forall e',
     prettyFormat object
       {| callToJSON := Some false; maxDepth := 10; min := true |} = Throw e' ->
     stringify prettyFormat object = Throw e').
Proof.
  intro Hfirst.
  assert (Hretry : stringify prettyFormat object
                   = prettyFormat object
                       {| callToJSON := Some false; maxDepth := 10; min := true |}).
  { unfold stringify. rewrite Hfirst. reflexivity. }
  split; [exact Hretry|].
  split; intros x Hx; rewrite Hretry; exact Hx.
Qed.

Lemma stringify_retries_without_hook_witness :
  samplePrettyFormat hooked_array
    {| callToJSON := None; maxDepth := 10; min := true |}
    = Throw (Thrown (VString "boom")) /\
  stringify samplePrettyFormat hooked_array = Return "[1, true]".
Proof.
  split; [reflexivity|].
  exact (proj1 (proj2 (stringify_retries_without_hook samplePrettyFormat
                         hooked_array (Thrown (VString "boom")) eq_refl))
           "[1, true]" eq_refl).
Defined.

Lemma printWithType_Return (name : string) (received : value)
    (print : value -> completion string) (type printed : string) :
  getType received = Return type ->
  print received = Return printed ->
  printWithType name received print =
  Return (name ++ ":" ++
          (if negb (type =? "null") && negb (type =? "undefined")
           then LF ++ "  " ++ type ++ ": " else " ") ++ printed).
Proof.
  intros Htype Hprint. unfold printWithType.
  now rewrite Htype, Hprint.
Qed.



(** ** The guards *)

Lemma typeof_undefined (v : value) :
  (typeof v =? "undefined") = true <-> v = VUndefined.
Proof.
  destruct v; simpl; split; intro H; try discriminate H; reflexivity.
Qed.

(** A guard whose test fails builds its message and throws: it never returns. *)
Lemma bind_Throw_not_Return {A : Type} (c : completion A) (k : A -> exn) :
  (x <- c ;; Throw (k x)) <> Return tt.
Proof.
  destruct c; simpl; discriminate.
Qed.

Lemma ensureNoExpected_Return (chalk : Chalk)
    (prettyFormat : value -> options -> completion string)
    (expected : value) (matcherName : option string) :
  ensureNoExpected chalk prettyFormat expected matcherName = Return tt
  <-> expected = VUndefined.
Proof.
  unfold ensureNoExpected.
  destruct (typeof expected =? "undefined") eqn:Htest; simpl.
  - apply typeof_undefined in Htest. tauto.
  - split; intro H.
    + exfalso. exact (bind_Throw_not_Return _ _ H).
    + apply typeof_undefined in H. congruence.
Qed.

Lemma ensureNoExpected_Throw (chalk : Chalk)
    (prettyFormat : value -> options -> completion string)
    (expected : value) (matcherName : option string) (got : string) :
  expected <> VUndefined ->
  printWithType "Got" expected (printExpected chalk prettyFormat) = Return got ->
  ensureNoExpected chalk prettyFormat expected matcherName =
  Throw (Error
    (matcherHint chalk ("[.not]" ++ or_default matcherName "This") None (Some "")
     ++ LF ++ LF ++ "Matcher does not accept any arguments." ++ LF ++ got)).
Proof.
  intros Hdefined Hgot. unfold ensureNoExpected.
  destruct (typeof expected =? "undefined") eqn:Htest; simpl.
  - apply typeof_undefined in Htest. contradiction.
  - now rewrite Hgot.
Qed.

Lemma ensureActualIsNumber_Return (chalk : Chalk)
    (prettyFormat : value -> options -> completion string)
    (actual : value) (matcherName : option string) :
  ensureActualIsNumber chalk prettyFormat actual matcherName = Return tt
  <-> typeof actual = "number".
Proof.
  unfold ensureActualIsNumber.
  destruct (typeof actual =? "number") eqn:Htest; simpl.
  - apply String.eqb_eq in Htest. tauto.
  - apply String.eqb_neq in Htest. split; intro H.
    + exfalso. exact (bind_Throw_not_Return _ _ H).
    + contradiction.
Qed.

Lemma ensureActualIsNumber_Throw (chalk : Chalk)
    (prettyFormat : value -> options -> completion string)
    (actual : value) (matcherName : option string) (received : string) :
  typeof actual <> "number" ->
  printWithType "Received" actual (printReceived chalk prettyFormat)
    = Return received ->
  ensureActualIsNumber chalk prettyFormat actual matcherName =
  Throw (Error
    (matcherHint chalk ("[.not]" ++ or_default matcherName "This matcher") None None
     ++ LF ++ LF ++ "Actual value must be a number." ++ LF ++ received)).
Proof.
  intros Hkind Hreceived. unfold ensureActualIsNumber.
  apply String.eqb_neq in Hkind. rewrite Hkind. simpl.
  now rewrite Hreceived.
Qed.

Lemma ensureExpectedIsNumber_Return (chalk : Chalk)
    (prettyFormat : value -> options -> completion string)
    (expected : value) (matcherName : option string) :
  ensureExpectedIsNumber chalk prettyFormat expected matcherName = Return tt
  <-> typeof expected = "number".
Proof.
  unfold ensureExpectedIsNumber.
  destruct (typeof expected =? "number") eqn:Htest; simpl.
  - apply String.eqb_eq in Htest. tauto.
  - apply String.eqb_neq in Htest. split; intro H.
    + exfalso. exact (bind_Throw_not_Return _ _ H).
    + contradiction.
Qed.

Lemma ensureExpectedIsNumber_Throw (chalk : Chalk)
    (prettyFormat : value -> options -> completion string)
    (expected : value) (matcherName : option string) (got : string) :
  typeof expected <> "number" ->
  printWithType "Got" expected (printExpected chalk prettyFormat) = Return got ->
  ensureExpectedIsNumber chalk prettyFormat expected matcherName =
  Throw (Error
    (matcherHint chalk ("[.not]" ++ or_default matcherName "This matcher") None None
     ++ LF ++ LF ++ "Expected value must be a number." ++ LF ++ got)).
Proof.
  intros Hkind Hgot. unfold ensureExpectedIsNumber.
  apply String.eqb_neq in Hkind. rewrite Hkind. simpl.
  now rewrite Hgot.
Qed.

(** [ensureNumbers] surfaces the actual-side failure whenever there is one,
    and otherwise is the expected-side check. *)
Lemma ensureNumbers_actual_first (chalk : Chalk)
    (prettyFormat : value -> options -> completion string)
    (actual expected : value) (matcherName : option string) :
  (typeof actual <> "number" ->
   ensureNumbers chalk prettyFormat actual expected matcherName
   = ensureActualIsNumber chalk prettyFormat actual matcherName) /\
  (typeof actual = "number" ->
   ensureNumbers chalk prettyFormat actual expected matcherName
   = ensureExpectedIsNumber chalk prettyFormat expected matcherName).
Proof.
  unfold ensureNumbers. split; intro Hkind.
  - destruct (ensureActualIsNumber chalk prettyFormat actual matcherName)
      as [[]|e] eqn:Hactual; simpl.
    + apply ensureActualIsNumber_Return in Hactual. contradiction.
    + reflexivity.
  - apply (ensureActualIsNumber_Return chalk prettyFormat actual matcherName)
      in Hkind.
    now rewrite Hkind.
Qed.

Lemma matcherHint_passThrough (matcherName received expected : string) :
  matcherHint passThrough matcherName (Some received) (Some expected)
  = "expect(" ++ received ++ ")" ++ matcherName ++ "(" ++ expected ++ ")".
Proof.
  unfold matcherHint, RECEIVED_COLOR, EXPECTED_COLOR. simpl.
  now rewrite !append_assoc.
Qed.

(** What a guard throws when the labelled value cannot be built. *)
Lemma ensureNoExpected_propagates (chalk : Chalk)
    (prettyFormat : value -> options -> completion string)
    (expected : value) (matcherName : option string) (e : exn) :
  expected <> VUndefined ->
  printWithType "Got" expected (printExpected chalk prettyFormat) = Throw e ->
  ensureNoExpected chalk prettyFormat expected matcherName = Throw e.
Proof.
  intros Hdefined Hgot. unfold ensureNoExpected.
  destruct (typeof expected =? "undefined") eqn:Htest; simpl.
  - apply typeof_undefined in Htest. contradiction.
  - now rewrite Hgot.
Qed.

Lemma ensureActualIsNumber_propagates (chalk : Chalk)
    (prettyFormat : value -> options -> completion string)
    (actual : value) (matcherName : option string) (e : exn) :
  typeof actual <> "number" ->
  printWithType "Received" actual (printReceived chalk prettyFormat) = Throw e ->
  ensureActualIsNumber chalk prettyFormat actual matcherName = Throw e.
Proof.
  intros Hkind Hreceived. unfold ensureActualIsNumber.
  apply String.eqb_neq in Hkind. rewrite Hkind. simpl.
  now rewrite Hreceived.
Qed.

Lemma ensureExpectedIsNumber_propagates (chalk : Chalk)
    (prettyFormat : value -> options -> completion string)
    (expected : value) (matcherName : option string) (e : exn) :
  typeof expected <> "number" ->
  printWithType "Got" expected (printExpected chalk prettyFormat) = Throw e ->
  ensureExpectedIsNumber chalk prettyFormat expected matcherName = Throw e.
Proof.
  intros Hkind Hgot. unfold ensureExpectedIsNumber.
  apply String.eqb_neq in Hkind. rewrite Hkind. simpl.
  now rewrite Hgot.
Qed.

(** C5, as stated, fails on the code: for an [expected] other than
    [undefined] the guard does not always throw the formatted message.  On a
    BigInt, whatever the colors, the printer and the matcher name,
    [printWithType] throws the error of [getType], and so does the guard: no
    hint and no "Matcher does not accept any arguments." reach the caller. *)
Lemma ensureNoExpected_unformatted_failure :
  VBigInt 1 <> VUndefined /\
  (forall chalk prettyFormat matcherName,
     printWithType "Got" (VBigInt 1) (printExpected chalk prettyFormat)
       = Throw (UnknownTypeError (VBigInt 1)) /\
     ensureNoExpected chalk prettyFormat (VBigInt 1) matcherName
       = Throw (UnknownTypeError (VBigInt 1))) /\
  (forall message,
     ensureNoExpected passThrough samplePrettyFormat (VBigInt 1)
       (Some "toBeTruthy")
     <> Throw (Error message)).
Proof.
  split; [discriminate|].
  split; [intros; split; reflexivity|].
  intros message H. discriminate H.
Qed.

(** C5, amended: [ensureNoExpected(expected, matcherName)] returns (nothing,
    without throwing) exactly when [expected] is [undefined].  For any other
    [expected] it throws: when [printWithType("Got", expected,
    printExpected)] returns a string [got], the [Error] whose message is the
    hint [matcherHint("[.not]" + matcherName, undefined, "")], a blank line,
    the line "Matcher does not accept any arguments." and [got]; and when
    [printWithType] throws (a value of unknown type, a printer that fails),
    that exception.  The label is the given [matcherName] when it is not
    empty, and with pass-through colors the hint reads
    [expect(received)[.not]<matcherName>()], its expected slot empty. *)
Theorem ensureNoExpected_accepts_only_undefined (chalk : Chalk)
    (prettyFormat : value -> options -> completion string)
    (expected : value) (matcherName : option string) :
  (ensureNoExpected chalk prettyFormat expected matcherName = Return tt
   <-> expected = VUndefined) /\
  (forall got,
     expected <> VUndefined ->
     printWithType "Got" expected (printExpected chalk prettyFormat)
       = Return got ->
     ensureNoExpected chalk prettyFormat expected matcherName =
     Throw (Error
       (matcherHint chalk ("[.not]" ++ or_default matcherName "This")
          None (Some "")
        ++ LF ++ LF ++ "Matcher does not accept any arguments." ++ LF ++ got))) /\
  (forall e,
     expected <> VUndefined ->
     printWithType "Got" expected (printExpected chalk prettyFormat) = Throw e ->
     ensureNoExpected chalk prettyFormat expected matcherName = Throw e) /\
  (forall name, string_truthy name = true -> or_default (Some name) "This" = name) /\
  (forall name,
     matcherHint passThrough ("[.not]" ++ name) None (Some "")
     = "expect(received)[.not]" ++ name ++ "()").
Proof.
  split; [apply ensureNoExpected_Return|].
  split; [intros got Hdefined Hgot; now apply ensureNoExpected_Throw|].
  split; [intros e Hdefined Hgot; now apply ensureNoExpected_propagates|].
  split.
  - intros name Hname. simpl. now rewrite Hname.
  - intro name.
    change (matcherHint passThrough ("[.not]" ++ name) None (Some ""))
      with (matcherHint passThrough ("[.not]" ++ name)
              (Some "received") (Some "")).
    rewrite matcherHint_passThrough. reflexivity.
Qed.

Lemma ensureNoExpected_accepts_only_undefined_witness :
  ensureNoExpected passThrough samplePrettyFormat VUndefined (Some "toBeTruthy")
    = Return tt /\
  ensureNoExpected passThrough samplePrettyFormat (VNumber (Int 5))
    (Some "toBeTruthy")
    = Throw (Error
        ("expect(received)[.not]toBeTruthy()" ++ LF ++ LF ++
         "Matcher does not accept any arguments." ++ LF ++
         "Got:" ++ LF ++ "  number: 5")) /\
  ensureNoExpected passThrough samplePrettyFormat booby_trapped
    (Some "toBeTruthy")
    = Throw (Thrown (VString "getter")).
Proof.
  split; [|split].
  - exact (proj2 (proj1 (ensureNoExpected_accepts_only_undefined passThrough
                           samplePrettyFormat VUndefined (Some "toBeTruthy")))
             eq_refl).
  - apply (proj1 (proj2 (ensureNoExpected_accepts_only_undefined passThrough
                           samplePrettyFormat (VNumber (Int 5))
                           (Some "toBeTruthy")))
             ("Got:" ++ LF ++ "  number: 5")).
    + discriminate.
    + reflexivity.
  - apply (proj1 (proj2 (proj2 (ensureNoExpected_accepts_only_undefined
                           passThrough samplePrettyFormat booby_trapped
                           (Some "toBeTruthy"))))).
    + discriminate.
    + reflexivity.
Defined.

(** C6, as stated, fails on the code: a number guard that fails does not
    always carry its message.  On a BigInt, whatever the colors, the printer
    and the matcher name, [printWithType] throws the error of [getType], and
    [ensureActualIsNumber], [ensureExpectedIsNumber] and [ensureNumbers] throw
    it in place of "Actual value must be a number." or "Expected value must
    be a number.". *)
Lemma numeric_guards_unformatted_failure :
  typeof (VBigInt 1) <> "number" /\
  (forall chalk prettyFormat matcherName,
     ensureActualIsNumber chalk prettyFormat (VBigInt 1) matcherName
       = Throw (UnknownTypeError (VBigInt 1)) /\
     ensureExpectedIsNumber chalk prettyFormat (VBigInt 1) matcherName
       = Throw (UnknownTypeError (VBigInt 1)) /\
     ensureNumbers chalk prettyFormat (VBigInt 1) (VString "y") matcherName
       = Throw (UnknownTypeError (VBigInt 1))) /\
  (forall message,
     ensureActualIsNumber passThrough samplePrettyFormat (VBigInt 1) (Some "toBe")
     <> Throw (Error message)).
Proof.
  split; [discriminate|].
  split; [intros; repeat split; reflexivity|].
  intros message H. discriminate H.
Qed.

(** C6, amended: [ensureActualIsNumber(actual, matcherName)] returns exactly
    when [typeof actual] is "number".  Otherwise it throws: when
    [printWithType("Received", actual, printReceived)] returns a string
    [received], the [Error] made of the hint, a blank line, "Actual value
    must be a number." and [received]; when [printWithType] throws, that
    exception.  [ensureExpectedIsNumber] is the same check on [expected], with
    "Expected value must be a number." and [printWithType("Got", expected,
    printExpected)].  [ensureNumbers] runs the actual check first: when
    [actual] is not a number its outcome is that of [ensureActualIsNumber],
    whatever [expected] is, and when [actual] is a number its outcome is that
    of [ensureExpectedIsNumber]; so when neither is a number the failure
    thrown is the actual-side one. *)
Theorem numeric_guards_actual_first (chalk : Chalk)
    (prettyFormat : value -> options -> completion string)
    (actual expected : value) (matcherName : option string) :
  (ensureActualIsNumber chalk prettyFormat actual matcherName = Return tt
   <-> typeof actual = "number") /\
  (forall received,
     typeof actual <> "number" ->
     printWithType "Received" actual (printReceived chalk prettyFormat)
       = Return received ->
     ensureActualIsNumber chalk prettyFormat actual matcherName =
     Throw (Error
       (matcherHint chalk ("[.not]" ++ or_default matcherName "This matcher")
          None None
        ++ LF ++ LF ++ "Actual value must be a number." ++ LF ++ received))) /\
  (forall e,
     typeof actual <> "number" ->
     printWithType "Received" actual (printReceived chalk prettyFormat)
       = Throw e ->
     ensureActualIsNumber chalk prettyFormat actual matcherName = Throw e) /\
  (ensureExpectedIsNumber chalk prettyFormat expected matcherName = Return tt
   <-> typeof expected = "number") /\
  (forall got,
     typeof expected <> "number" ->
     printWithType "Got" expected (printExpected chalk prettyFormat)
       = Return got ->
     ensureExpectedIsNumber chalk prettyFormat expected matcherName =
     Throw (Error
       (matcherHint chalk ("[.not]" ++ or_default matcherName "This matcher")
          None None
        ++ LF ++ LF ++ "Expected value must be a number." ++ LF ++ got))) /\
  (forall e,
     typeof expected <> "number" ->
     printWithType "Got" expected (printExpected chalk prettyFormat) = Throw e ->
     ensureExpectedIsNumber chalk prettyFormat expected matcherName = Throw e) /\
  (typeof actual <> "number" ->
   ensureNumbers chalk prettyFormat actual expected matcherName
   = ensureActualIsNumber chalk prettyFormat actual matcherName) /\
  (typeof actual = "number" ->
   ensureNumbers chalk prettyFormat actual expected matcherName
   = ensureExpectedIsNumber chalk prettyFormat expected matcherName) /\
  (forall received,
     typeof actual <> "number" -> typeof expected <> "number" ->
     printWithType "Received" actual (printReceived chalk prettyFormat)
       = Return received ->
     ensureNumbers chalk prettyFormat actual expected matcherName =
     Throw (Error
       (matcherHint chalk ("[.not]" ++ or_default matcherName "This matcher")
          None None
        ++ LF ++ LF ++ "Actual value must be a number." ++ LF ++ received))).
Proof.
  destruct (ensureNumbers_actual_first chalk prettyFormat actual expected
              matcherName) as [Hfirst Hsecond].
  split; [apply ensureActualIsNumber_Return|].
  split; [intros received H Hr; now apply ensureActualIsNumber_Throw|].
  split; [intros e H Hr; now apply ensureActualIsNumber_propagates|].
  split; [apply ensureExpectedIsNumber_Return|].
  split; [intros got H Hg; now apply ensureExpectedIsNumber_Throw|].
  split; [intros e H Hg; now apply ensureExpectedIsNumber_propagates|].
  split; [exact Hfirst|].
  split; [exact Hsecond|].
  intros received Hactual _ Hr. rewrite (Hfirst Hactual).
  now apply ensureActualIsNumber_Throw.
Qed.

Lemma numeric_guards_actual_first_witness :
  ensureNumbers passThrough samplePrettyFormat (VString "x") (VString "y")
    (Some "toBe")
  = Throw (Error
      ("expect(received)[.not]toBe(expected)" ++ LF ++ LF ++
       "Actual value must be a number." ++ LF ++
       "Received:" ++ LF ++ "  string: " ++ DQUOTE ++ "x" ++ DQUOTE)) /\
  ensureActualIsNumber passThrough samplePrettyFormat (VString "x") (Some "toBe")
  = Throw (Error
      ("expect(received)[.not]toBe(expected)" ++ LF ++ LF ++
       "Actual value must be a number." ++ LF ++
       "Received:" ++ LF ++ "  string: " ++ DQUOTE ++ "x" ++ DQUOTE)) /\
  ensureActualIsNumber passThrough samplePrettyFormat (VNumber (Int 5))
    (Some "toBe") = Return tt.
Proof.
  pose proof (numeric_guards_actual_first passThrough samplePrettyFormat
                (VString "x") (VString "y") (Some "toBe"))
    as [_ [Hthrows [_ [_ [_ [_ [_ [_ Hboth]]]]]]]].
  pose proof (numeric_guards_actual_first passThrough samplePrettyFormat
                (VNumber (Int 5)) (VNumber (Int 5)) (Some "toBe"))
    as [[_ Hreturns] _].
  split; [|split].
  - apply (Hboth ("Received:" ++ LF ++ "  string: " ++ DQUOTE ++ "x" ++ DQUOTE));
      [discriminate | discriminate | reflexivity].
  - apply (Hthrows ("Received:" ++ LF ++ "  string: " ++ DQUOTE ++ "x" ++ DQUOTE));
      [discriminate | reflexivity].
  - apply Hreturns. reflexivity.
Defined.

(** C9, as stated, fails on the code: with an empty [matcherName] a guard
    that fails does not always throw the hint of its default label.  On a
    BigInt, a defined value that is not a number, whatever the colors and the
    printer, [ensureNoExpected(v, "")], [ensureActualIsNumber(v, "")] and
    [ensureExpectedIsNumber(v, "")] throw the error of [getType], and no hint
    is built. *)
Lemma falsy_matcherName_unformatted_failure :
  VBigInt 1 <> VUndefined /\
  typeof (VBigInt 1) <> "number" /\
  (forall chalk prettyFormat,
     ensureNoExpected chalk prettyFormat (VBigInt 1) (Some "")
       = Throw (UnknownTypeError (VBigInt 1)) /\
     ensureActualIsNumber chalk prettyFormat (VBigInt 1) (Some "")
       = Throw (UnknownTypeError (VBigInt 1)) /\
     ensureExpectedIsNumber chalk prettyFormat (VBigInt 1) (Some "")
       = Throw (UnknownTypeError (VBigInt 1))) /\
  (forall message,
     ensureNoExpected passThrough samplePrettyFormat (VBigInt 1) (Some "")
     <> Throw (Error message)).
Proof.
  split; [discriminate|].
  split; [discriminate|].
  split; [intros; repeat split; reflexivity|].
  intros message H. discriminate H.
Qed.

(** C9, amended: the guards substitute their default label whenever
    [matcherName] is falsy, the empty string as well as [undefined]: on every
    value each guard called with "" behaves as the call that leaves
    [matcherName] out.  Where the guard fails and [printWithType] returns the
    labelled value, [ensureNoExpected(v, "")] (for [v] other than
    [undefined]) throws with the hint built from "[.not]This", and
    [ensureActualIsNumber(v, "")] and [ensureExpectedIsNumber(v, "")] (for
    [v] that is not a number) throw with the hint built from
    "[.not]This matcher"; where [printWithType] throws, the guard throws that
    exception and builds no hint. *)
Theorem falsy_matcherName_takes_default (chalk : Chalk)
    (prettyFormat : value -> options -> completion string)
    (v other : value) :
  ensureNoExpected chalk prettyFormat v (Some "")
  = ensureNoExpected chalk prettyFormat v None /\
  ensureActualIsNumber chalk prettyFormat v (Some "")
  = ensureActualIsNumber chalk prettyFormat v None /\
  ensureExpectedIsNumber chalk prettyFormat v (Some "")
  = ensureExpectedIsNumber chalk prettyFormat v None /\
  ensureNumbers chalk prettyFormat v other (Some "")
  = ensureNumbers chalk prettyFormat v other None /\
  (forall got,
     v <> VUndefined ->
     printWithType "Got" v (printExpected chalk prettyFormat) = Return got ->
     ensureNoExpected chalk prettyFormat v (Some "") =
     Throw (Error
       (matcherHint chalk "[.not]This" None (Some "")
        ++ LF ++ LF ++ "Matcher does not accept any arguments." ++ LF ++ got))) /\
  (forall received,
     typeof v <> "number" ->
     printWithType "Received" v (printReceived chalk prettyFormat)
       = Return received ->
     ensureActualIsNumber chalk prettyFormat v (Some "") =
     Throw (Error
       (matcherHint chalk "[.not]This matcher" None None
        ++ LF ++ LF ++ "Actual value must be a number." ++ LF ++ received))) /\
  (forall got,
     typeof v <> "number" ->
     printWithType "Got" v (printExpected chalk prettyFormat) = Return got ->
     ensureExpectedIsNumber chalk prettyFormat v (Some "") =
     Throw (Error
       (matcherHint chalk "[.not]This matcher" None None
        ++ LF ++ LF ++ "Expected value must be a number." ++ LF ++ got))) /\
  (forall e,
     v <> VUndefined ->
     printWithType "Got" v (printExpected chalk prettyFormat) = Throw e ->
     ensureNoExpected chalk prettyFormat v (Some "") = Throw e) /\
  (forall e,
     typeof v <> "number" ->
     printWithType "Received" v (printReceived chalk prettyFormat) = Throw e ->
     ensureActualIsNumber chalk prettyFormat v (Some "") = Throw e) /\
  (forall e,
     typeof v <> "number" ->
     printWithType "Got" v (printExpected chalk prettyFormat) = Throw e ->
     ensureExpectedIsNumber chalk prettyFormat v (Some "") = Throw e).
Proof.
  split; [reflexivity|].
  split; [reflexivity|].
  split; [reflexivity|].
  split; [reflexivity|].
  split; [intros got Hdefined Hgot;
          exact (ensureNoExpected_Throw chalk prettyFormat v (Some "") got
                   Hdefined Hgot)|].
  split; [intros received Hkind Hreceived;
          exact (ensureActualIsNumber_Throw chalk prettyFormat v (Some "")
                   received Hkind Hreceived)|].
  split; [intros got Hkind Hgot;
          exact (ensureExpectedIsNumber_Throw chalk prettyFormat v (Some "") got
                   Hkind Hgot)|].
  split; [intros e Hdefined Hgot; now apply ensureNoExpected_propagates|].
  split; [intros e Hkind Hreceived; now apply ensureActualIsNumber_propagates|].
  intros e Hkind Hgot. now apply ensureExpectedIsNumber_propagates.
Qed.

Lemma falsy_matcherName_takes_default_witness :
  ensureNoExpected passThrough samplePrettyFormat (VNumber (Int 5)) (Some "") =
  Throw (Error
    ("expect(received)[.not]This()" ++ LF ++ LF ++
     "Matcher does not accept any arguments." ++ LF ++
     "Got:" ++ LF ++ "  number: 5")) /\
  ensureActualIsNumber passThrough samplePrettyFormat VUndefined (Some "") =
  Throw (Error
    ("expect(received)[.not]This matcher(expected)" ++ LF ++ LF ++
     "Actual value must be a number." ++ LF ++
     "Received: undefined")).
Proof.
  split.
  - apply (proj1 (proj2 (proj2 (proj2 (proj2
             (falsy_matcherName_takes_default passThrough samplePrettyFormat
                (VNumber (Int 5)) VNull)))))
             ("Got:" ++ LF ++ "  number: 5")).
    + discriminate.
    + reflexivity.
  - apply (proj1 (proj2 (proj2 (proj2 (proj2 (proj2
             (falsy_matcherName_takes_default passThrough samplePrettyFormat
                VUndefined VNull))))))
             "Received: undefined").
    + discriminate.
    + reflexivity.
Defined.

(** ** The message builders *)

Lemma Number_toString_safe (beyond_safe : Z -> string) (z : Z) :
  (Z.abs z <= 2 ^ 53)%Z -> Number_toString beyond_safe (Int z) = decimal z.
Proof.
  intro Hsafe. unfold Number_toString.
  apply Z.leb_le in Hsafe. now rewrite Hsafe.
Qed.

Lemma pluralize_numeral (beyond_safe : Z -> string) (word : string) (n : nat) :
  (14 <= n)%nat ->
  pluralize beyond_safe word (Int (Z.of_nat n))
  = Number_toString beyond_safe (Int (Z.of_nat n)) ++ " " ++ word ++ "s".
Proof.
  intro Hn. unfold pluralize, element_at.
  assert (Hrange : (Z.of_nat n <? Z.of_nat (List.length NUMBERS))%Z = false)
    by (apply Z.ltb_ge; simpl List.length; lia).
  assert (Hone : number_strict_equal (Int (Z.of_nat n)) (Int 1) = false)
    by (simpl; apply Z.eqb_neq; lia).
  rewrite Hrange, Bool.andb_false_r, Hone. reflexivity.
Qed.

(** C7: for every word and every natural count [n], [pluralize(word, n)] is
    the [n]-th entry of [NUMBERS] ("zero" to "thirteen") when [n] is at most
    13 and the numeral of [n] when [n] is 14 or more, then a space, the word,
    and an "s" unless [n] is 1.  The numeral is the count converted to a
    string by the language: its decimal digits throughout the safe range (up
    to 2^53), and whatever the language prints beyond.  So
    [pluralize("apple", 1)] is "one apple", [pluralize("apple", 2)] is
    "two apples" and [pluralize("apple", 20)] is "20 apples". *)
Theorem pluralize_spells_up_to_thirteen (beyond_safe : Z -> string)
    (word : string) (n : nat) :
  pluralize beyond_safe word (Int (Z.of_nat n))
  = (if (n <? 14)%nat then nth n NUMBERS ""
     else Number_toString beyond_safe (Int (Z.of_nat n)))
    ++ " " ++ word ++ (if (n =? 1)%nat then "" else "s") /\
  ((Z.of_nat n <= 2 ^ 53)%Z ->
   Number_toString beyond_safe (Int (Z.of_nat n)) = decimal (Z.of_nat n)) /\
  NUMBERS = ["zero"; "one"; "two"; "three"; "four"; "five"; "six"; "seven";
             "eight"; "nine"; "ten"; "eleven"; "twelve"; "thirteen"] /\
  pluralize beyond_safe "apple" (Int 1) = "one apple" /\
  pluralize beyond_safe "apple" (Int 2) = "two apples" /\
  pluralize beyond_safe "apple" (Int 20) = "20 apples".
Proof.
  split; [|split; [|repeat split; reflexivity]].
  - destruct (n <? 14)%nat eqn:Hsmall.
    + do 14 (destruct n as [|n]; [reflexivity|]).
      discriminate Hsmall.
    + apply Nat.ltb_ge in Hsmall.
      rewrite (pluralize_numeral beyond_safe word n Hsmall).
      destruct (n =? 1)%nat eqn:Hone; [|reflexivity].
      apply Nat.eqb_eq in Hone. lia.
  - intro Hsafe. apply Number_toString_safe. lia.
Qed.

Lemma pluralize_spells_up_to_thirteen_witness :
  (forall beyond_safe, pluralize beyond_safe "apple" (Int 14) = "14 apples") /\
  (forall beyond_safe, Number_toString beyond_safe (Int 20) = "20").
Proof.
  split; intro beyond_safe.
  - exact (proj1 (pluralize_spells_up_to_thirteen beyond_safe "apple" 14)).
  - apply (proj1 (proj2 (pluralize_spells_up_to_thirteen beyond_safe "apple" 20))).
    vm_compute. discriminate.
Defined.

(** C8: with pass-through colors [matcherHint(matcherName, received,
    expected)] is "expect(" + received + ")" + matcherName + "(" + expected +
    ")", the matcher name inserted verbatim and each label that is left out
    replaced by "received" or "expected"; [matcherHint(".toBe")] is
    "expect(received).toBe(expected)" and every hint starts with "expect(".
    With any colors the five pieces are styled dim, received color, dim,
    expected color, dim. *)
Theorem matcherHint_inserts_name_verbatim (matcherName : string)
    (received expected : option string) :
  matcherHint passThrough matcherName received expected
  = "expect(" ++ match received with Some r => r | None => "received" end
    ++ ")" ++ matcherName ++ "("
    ++ match expected with Some e => e | None => "expected" end ++ ")" /\
  matcherHint passThrough matcherName None None
  = "expect(received)" ++ matcherName ++ "(expected)" /\
  matcherHint passThrough ".toBe" None None = "expect(received).toBe(expected)" /\
  prefix "expect(" (matcherHint passThrough matcherName received expected)
  = true /\
  (forall chalk : Chalk,
     matcherHint chalk matcherName received expected
     = dim chalk "expect("
       ++ red chalk match received with Some r => r | None => "received" end
       ++ dim chalk (")" ++ matcherName ++ "(")
       ++ green chalk match expected with Some e => e | None => "expected" end
       ++ dim chalk ")").
Proof.
  assert (Hplain : forall r e,
            matcherHint passThrough matcherName r e
            = "expect(" ++ match r with Some r => r | None => "received" end
              ++ ")" ++ matcherName ++ "("
              ++ match e with Some e => e | None => "expected" end ++ ")").
  { intros r e.
    rewrite <- (matcherHint_passThrough matcherName
                  match r with Some r => r | None => "received" end
                  match e with Some e => e | None => "expected" end).
    destruct r, e; reflexivity. }
  split; [apply Hplain|].
  split; [rewrite Hplain; reflexivity|].
  split; [reflexivity|].
  split; [rewrite Hplain; apply prefix_append|].
  reflexivity.
Qed.

(** * Further properties of the module *)

(** ** [stringify] and the print functions (lines 78-94) *)

(** X1: [stringify] returns a string exactly when the first [prettyFormat]
    attempt returns it, or the first attempt throws and the attempt with
    [callToJSON: false] returns it; it throws exactly when both attempts
    throw, and what it throws is the exception of the second attempt, the
    first one being dropped. *)
Theorem stringify_outcomes
    (prettyFormat : value -> options -> completion string) (object : value) :
  (forall s,
     stringify prettyFormat object = Return s <->
     prettyFormat object {| callToJSON := None; maxDepth := 10; min := true |}
       = Return s \/
     ((exists e,
         prettyFormat object
           {| callToJSON := None; maxDepth := 10; min := true |} = Throw e) /\
      prettyFormat object
        {| callToJSON := Some false; maxDepth := 10; min := true |} = Return s)) /\
  (forall e,
     stringify prettyFormat object = Throw e <->
     (exists first,
        prettyFormat object
          {| callToJSON := None; maxDepth := 10; min := true |} = Throw first) /\
     prettyFormat object
       {| callToJSON := Some false; maxDepth := 10; min := true |} = Throw e).
Proof.
  unfold stringify.
  destruct (prettyFormat object
              {| callToJSON := None; maxDepth := 10; min := true |})
    as [s0|e0]; simpl; split.
  - intro s. split.
    + intro H. left. exact H.
    + intros [H|[[e He] _]]; [exact H | discriminate He].
  - intro e. split.
    + intro H. discriminate H.
    + intros [[first Hfirst] _]. discriminate Hfirst.
  - intro s. split.
    + intro H. right. split; [exists e0; reflexivity | exact H].
    + intros [H|[_ H]]; [discriminate H | exact H].
  - intro e. split.
    + intro H. split; [exists e0; reflexivity | exact H].
    + intros [_ H]. exact H.
Qed.

(** X2: [stringify] consults the printer on the value itself and with two
    option sets only, [maxDepth: 10], [min: true] with [callToJSON] left out
    or [false]: two printers that agree on these two calls give the same
    [stringify] outcome, whatever they do elsewhere. *)
Theorem stringify_reads_two_renderings
    (prettyFormat prettyFormat' : value -> options -> completion string)
    (object : value) :
  prettyFormat object {| callToJSON := None; maxDepth := 10; min := true |}
  = prettyFormat' object {| callToJSON := None; maxDepth := 10; min := true |} ->
  prettyFormat object {| callToJSON := Some false; maxDepth := 10; min := true |}
  = prettyFormat' object
      {| callToJSON := Some false; maxDepth := 10; min := true |} ->
  stringify prettyFormat object = stringify prettyFormat' object.
Proof.
  intros Hfirst Hsecond. unfold stringify.
  rewrite Hfirst, Hsecond. reflexivity.
Qed.

Lemma stringify_reads_two_renderings_witness :
  stringify samplePrettyFormat hooked_array
  = stringify
      (fun v o =>
         if Nat.eqb (maxDepth o) 10 && min o then samplePrettyFormat v o
         else Throw (Error "unused"))
      hooked_array.
Proof.
  exact (stringify_reads_two_renderings samplePrettyFormat
           (fun v o =>
              if Nat.eqb (maxDepth o) 10 && min o then samplePrettyFormat v o
              else Throw (Error "unused"))
           hooked_array eq_refl eq_refl).
Defined.

(** X3: [printReceived] and [printExpected] are [stringify] followed by a
    color: each throws exactly what [stringify] throws, and when [stringify]
    returns [s] they return [s] in the received color ([chalk.red]) and in the
    expected color ([chalk.green]); with pass-through colors both are
    [stringify]. *)
Theorem print_functions_follow_stringify (chalk : Chalk)
    (prettyFormat : value -> options -> completion string) (object : value) :
  (forall e, printReceived chalk prettyFormat object = Throw e
             <-> stringify prettyFormat object = Throw e) /\
  (forall e, printExpected chalk prettyFormat object = Throw e
             <-> stringify prettyFormat object = Throw e) /\
  (forall r, printReceived chalk prettyFormat object = Return r
             <-> exists s, stringify prettyFormat object = Return s
                           /\ r = red chalk s) /\
  (forall r, printExpected chalk prettyFormat object = Return r
             <-> exists s, stringify prettyFormat object = Return s
                           /\ r = green chalk s) /\
  printReceived passThrough prettyFormat object = stringify prettyFormat object /\
  printExpected passThrough prettyFormat object = stringify prettyFormat object.
Proof.
  unfold printReceived, printExpected, RECEIVED_COLOR, EXPECTED_COLOR.
  destruct (stringify prettyFormat object) as [s|e0]; simpl.
  - split; [intro e; split; intro H; discriminate H|].
    split; [intro e; split; intro H; discriminate H|].
    split.
    { intro r; split.
      - intro H. injection H as <-. exists s. split; reflexivity.
      - intros [s' [Hs ->]]. injection Hs as <-. reflexivity. }
    split; [|split; reflexivity].
    intro r; split.
    + intro H. injection H as <-. exists s. split; reflexivity.
    + intros [s' [Hs ->]]. injection Hs as <-. reflexivity.
  - split; [intro e; tauto|].
    split; [intro e; tauto|].
    split.
    { intro r; split.
      - intro H. discriminate H.
      - intros [s' [Hs _]]. discriminate Hs. }
    split; [|split; reflexivity].
    intro r; split.
    + intro H. discriminate H.
    + intros [s' [Hs _]]. discriminate Hs.
Qed.

(** ** What a tag tells about the value (lines 50-76) *)

(** What [getType] returns, read back on the shape of the value. *)
Lemma getType_Return_inv (v : value) (t : string) :
  getType v = Return t ->
  match v with
  | VUndefined => t = "undefined"
  | VNull => t = "null"
  | VBoolean _ => t = "boolean"
  | VNumber _ => t = "number"
  | VString _ => t = "string"
  | VSymbol _ => t = "symbol"
  | VFunction _ => t = "function"
  | VBigInt _ => False
  | VObject (ArrayExotic _) _ _ => t = "array"
  | VObject _ constructor _ =>
      t = if is_RegExp constructor then "regexp" else "object"
  | VAccessorObject _ _ _ => t = "object"
  | VRevokedProxy => False
  end.
Proof.
  destruct v as [| |b|n|s|d|f|z|c ctor hk|name thrown hk|]; intro H;
    try (injection H as <-; reflexivity); try discriminate H.
  - rewrite getType_VObject in H. injection H as <-.
    destruct c; reflexivity.
  - rewrite getType_VAccessorObject in H.
    destruct (name =? "constructor"); [discriminate H|].
    injection H as <-. reflexivity.
Qed.

Lemma getType_number (v : value) :
  getType v = Return "number" <-> typeof v = "number".
Proof.
  split; intro H.
  - apply getType_Return_inv in H.
    destruct v as [| |b|n|s|d|f|z|c ctor hk|name thrown hk|];
      try discriminate H; try reflexivity; try contradiction.
    destruct c, (is_RegExp ctor); discriminate H.
  - destruct v; try discriminate H. reflexivity.
Qed.

Lemma getType_undefined (v : value) :
  getType v = Return "undefined" <-> v = VUndefined.
Proof.
  split; intro H.
  - apply getType_Return_inv in H.
    destruct v as [| |b|n|s|d|f|z|c ctor hk|name thrown hk|];
      try discriminate H; try reflexivity; try contradiction.
    destruct c, (is_RegExp ctor); discriminate H.
  - subst v. reflexivity.
Qed.

(** X4: a tag returned by [getType] is one of the ten of [ValueType] and can
    be trusted for what it names: "undefined" and "null" are returned for
    those two values only, "array" exactly for the values accepted by
    [Array.isArray], "boolean", "function", "number", "string" and "symbol"
    exactly for the values whose [typeof] is that name, and "regexp" and
    "object" exactly for the non-null, non-array values of [typeof] "object"
    whose constructor is, respectively is not, identically [RegExp]. *)
Theorem getType_tag_sound (v : value) (t : string) :
  getType v = Return t ->
  In t ValueType /\
  (t = "undefined" <-> v = VUndefined) /\
  (t = "null" <-> v = VNull) /\
  (t = "array" <-> Array_isArray v = true) /\
  (t = "boolean" <-> typeof v = "boolean") /\
  (t = "function" <-> typeof v = "function") /\
  (t = "number" <-> typeof v = "number") /\
  (t = "string" <-> typeof v = "string") /\
  (t = "symbol" <-> typeof v = "symbol") /\
  (t = "regexp" <->
   typeof v = "object" /\ is_null v = false /\ Array_isArray v = false /\
   constructor_is_RegExp v = true) /\
  (t = "object" <->
   typeof v = "object" /\ is_null v = false /\ Array_isArray v = false /\
   constructor_is_RegExp v = false).
Proof.
  intro H. apply getType_Return_inv in H.
  destruct v as [| |b|n|s|d|f|z|c ctor hk|name thrown hk|]; try contradiction;
    try (subst t; simpl;
         repeat split; intros; try tauto; try discriminate;
         try (intuition discriminate)).
  destruct c; simpl in *;
    try destruct (is_RegExp ctor) eqn:Hctor; subst t; simpl;
    repeat split; intros; try tauto; try discriminate;
    try (intuition discriminate).
Qed.

Lemma getType_tag_sound_witness :
  In "array" ValueType /\ ("array" = "array" <-> Array_isArray array_1_2 = true).
Proof.
  pose proof (getType_tag_sound array_1_2 "array" eq_refl)
    as [Hin [_ [_ [Harray _]]]].
  split; [exact Hin | exact Harray].
Defined.

(** ** [printWithType] (lines 96-109) *)

(** X5: [printWithType] classifies before it prints.  For a value whose
    [typeof] [getType] does not know it throws the classification error,
    whatever [print] would do; for a classified value it throws what [print]
    throws; and whenever it returns, the value was classified and printed and
    the result starts with the label and a colon. *)
Theorem printWithType_classifies_before_printing (name : string)
    (print : value -> completion string) (received : value) :
  (recognized received = false ->
   printWithType name received print = Throw (UnknownTypeError received)) /\
  (forall type e,
     getType received = Return type -> print received = Throw e ->
     printWithType name received print = Throw e) /\
  (forall result,
     printWithType name received print = Return result ->
     prefix (name ++ ":") result = true /\
     exists type printed,
       getType received = Return type /\ print received = Return printed).
Proof.
  split; [|split].
  - intro Hrec. unfold printWithType.
    now rewrite (getType_unrecognized received Hrec).
  - intros type e Htype Hprint. unfold printWithType.
    now rewrite Htype, Hprint.
  - intros result H. unfold printWithType in H.
    destruct (getType received) as [type|e]; [|discriminate H].
    destruct (print received) as [printed|e]; [|discriminate H].
    cbv beta iota delta [bind] in H. injection H as <-.
    split.
    + match goal with
      | |- prefix _ (name ++ String ?c ?rest) = true =>
          change (name ++ String c rest) with (name ++ ":" ++ rest)
      end.
      rewrite <- append_assoc. apply prefix_append.
    + exists type, printed. split; reflexivity.
Qed.

Lemma printWithType_classifies_before_printing_witness :
  printWithType "Got" (VBigInt 1) (fun _ => Return "1")
  = Throw (UnknownTypeError (VBigInt 1)) /\
  printWithType "Got" VNull (fun _ => Throw (Error "no rendering"))
  = Throw (Error "no rendering").
Proof.
  split.
  - exact (proj1 (printWithType_classifies_before_printing "Got"
                    (fun _ => Return "1") (VBigInt 1)) eq_refl).
  - exact (proj1 (proj2 (printWithType_classifies_before_printing "Got"
                    (fun _ => Throw (Error "no rendering")) VNull))
             "null" (Error "no rendering") eq_refl eq_refl).
Defined.

(** ** The guards on values they cannot describe (lines 111-147) *)

Lemma recognized_false_typeof (v : value) :
  recognized v = false -> typeof v <> "number" /\ v <> VUndefined.
Proof.
  destruct v; intro H; try discriminate H.
  split; discriminate.
Qed.

(** X6: on a value whose [typeof] [getType] does not know (a BigInt), each
    guard throws the classification error of [getType] and not its own
    formatted [Error], whatever the matcher name, the colors and the printer;
    [ensureNumbers] does so as soon as [actual] is such a value. *)
Theorem guards_throw_classification_error (chalk : Chalk)
    (prettyFormat : value -> options -> completion string)
    (v other : value) (matcherName : option string) :
  recognized v = false ->
  ensureNoExpected chalk prettyFormat v matcherName
    = Throw (UnknownTypeError v) /\
  ensureActualIsNumber chalk prettyFormat v matcherName
    = Throw (UnknownTypeError v) /\
  ensureExpectedIsNumber chalk prettyFormat v matcherName
    = Throw (UnknownTypeError v) /\
  ensureNumbers chalk prettyFormat v other matcherName
    = Throw (UnknownTypeError v).
Proof.
  intro Hrec.
  destruct (recognized_false_typeof v Hrec) as [Hkind Hdefined].
  assert (Hundef : (typeof v =? "undefined") = false).
  { destruct (typeof v =? "undefined") eqn:E; [|reflexivity].
    apply typeof_undefined in E. contradiction. }
  apply String.eqb_neq in Hkind.
  assert (Hactual : ensureActualIsNumber chalk prettyFormat v matcherName
                    = Throw (UnknownTypeError v)).
  { unfold ensureActualIsNumber, printWithType.
    now rewrite Hkind, (getType_unrecognized v Hrec). }
  split.
  - unfold ensureNoExpected, printWithType.
    now rewrite Hundef, (getType_unrecognized v Hrec).
  - split; [exact Hactual|]. split.
    + unfold ensureExpectedIsNumber, printWithType.
      now rewrite Hkind, (getType_unrecognized v Hrec).
    + unfold ensureNumbers. now rewrite Hactual.
Qed.

Lemma guards_throw_classification_error_witness :
  ensureActualIsNumber passThrough samplePrettyFormat (VBigInt 1) (Some "toBe")
    = Throw (UnknownTypeError (VBigInt 1)) /\
  ensureNumbers passThrough samplePrettyFormat (VBigInt 1) (VNumber (Int 2)) None
    = Throw (UnknownTypeError (VBigInt 1)).
Proof.
  split.
  - exact (proj1 (proj2 (guards_throw_classification_error passThrough
                           samplePrettyFormat (VBigInt 1) VNull (Some "toBe")
                           eq_refl))).
  - exact (proj2 (proj2 (proj2 (guards_throw_classification_error passThrough
                           samplePrettyFormat (VBigInt 1) (VNumber (Int 2)) None
                           eq_refl)))).
Defined.

(** X7: when the offending value is classified ([getType] returns a tag for
    it) but [stringify] throws on it, each guard that rejects the value
    throws that exception and not its formatted [Error]: the message is only
    built once the value has been rendered.  So it is with an object one of
    whose properties has a getter that throws. *)
Theorem guards_surface_stringify_failure (chalk : Chalk)
    (prettyFormat : value -> options -> completion string)
    (v : value) (matcherName : option string) (type : string) (e : exn) :
  getType v = Return type ->
  stringify prettyFormat v = Throw e ->
  (v <> VUndefined ->
   ensureNoExpected chalk prettyFormat v matcherName = Throw e) /\
  (typeof v <> "number" ->
   ensureActualIsNumber chalk prettyFormat v matcherName = Throw e) /\
  (typeof v <> "number" ->
   ensureExpectedIsNumber chalk prettyFormat v matcherName = Throw e).
Proof.
  intros Htype Hstringify.
  assert (Hgot : forall name,
            printWithType name v (printExpected chalk prettyFormat) = Throw e).
  { intro name. unfold printWithType, printExpected.
    now rewrite Htype, Hstringify. }
  assert (Hreceived : forall name,
            printWithType name v (printReceived chalk prettyFormat) = Throw e).
  { intro name. unfold printWithType, printReceived.
    now rewrite Htype, Hstringify. }
  split; [|split].
  - intro Hdefined. now apply ensureNoExpected_propagates.
  - intro Hkind. now apply ensureActualIsNumber_propagates.
  - intro Hkind. now apply ensureExpectedIsNumber_propagates.
Qed.

Lemma guards_surface_stringify_failure_witness :
  getType booby_trapped = Return "object" /\
  stringify samplePrettyFormat booby_trapped = Throw (Thrown (VString "getter")) /\
  ensureActualIsNumber passThrough samplePrettyFormat booby_trapped (Some "toBe")
  = Throw (Thrown (VString "getter")).
Proof.
  split; [reflexivity|].
  split; [reflexivity|].
  apply (proj1 (proj2 (guards_surface_stringify_failure passThrough
                         samplePrettyFormat booby_trapped (Some "toBe")
                         "object" (Thrown (VString "getter"))
                         eq_refl eq_refl))).
  discriminate.
Defined.

(** ** When the guards let a call through *)

(** X8: [ensureNumbers] returns exactly when both arguments have [typeof]
    "number", whatever the matcher name, the colors and the printer (which it
    then never consults); NaN and the infinities are numbers to it. *)
Theorem ensureNumbers_returns_iff_both_numbers (chalk : Chalk)
    (prettyFormat : value -> options -> completion string)
    (actual expected : value) (matcherName : option string) :
  (ensureNumbers chalk prettyFormat actual expected matcherName = Return tt
   <-> typeof actual = "number" /\ typeof expected = "number") /\
  (forall n k : number,
     ensureNumbers chalk prettyFormat (VNumber n) (VNumber k) matcherName
     = Return tt).
Proof.
  split; [|reflexivity].
  destruct (ensureNumbers_actual_first chalk prettyFormat actual expected
              matcherName) as [Hfirst Hsecond].
  destruct (string_dec (typeof actual) "number") as [Hactual|Hactual].
  - rewrite (Hsecond Hactual), ensureExpectedIsNumber_Return. tauto.
  - rewrite (Hfirst Hactual), ensureActualIsNumber_Return. tauto.
Qed.

(** X9: the guards and the classifier agree.  A number guard lets a value
    through exactly when [getType] tags it "number", and [ensureNoExpected]
    lets its argument through exactly when [getType] tags it "undefined". *)
Theorem guards_agree_with_getType (chalk : Chalk)
    (prettyFormat : value -> options -> completion string)
    (v : value) (matcherName : option string) :
  (ensureActualIsNumber chalk prettyFormat v matcherName = Return tt
   <-> getType v = Return "number") /\
  (ensureExpectedIsNumber chalk prettyFormat v matcherName = Return tt
   <-> getType v = Return "number") /\
  (ensureNoExpected chalk prettyFormat v matcherName = Return tt
   <-> getType v = Return "undefined").
Proof.
  rewrite ensureActualIsNumber_Return, ensureExpectedIsNumber_Return,
    ensureNoExpected_Return, getType_number, getType_undefined.
  tauto.
Qed.

(** ** The complete message of a guard *)

Lemma type_segment_shown (v : value) (t : string) :
  getType v = Return t ->
  v <> VUndefined ->
  negb (t =? "null") && negb (t =? "undefined") = negb (is_null v).
Proof.
  intros H Hdefined. apply getType_Return_inv in H.
  destruct v as [| |b|n|s|d|f|z|c ctor hk|name thrown hk|]; try contradiction;
    try (subst t; reflexivity).
  destruct c; try destruct (is_RegExp ctor); subst t; reflexivity.
Qed.

(** X10: the message a failing guard throws, end to end.  For a defined value
    that is not a number, tagged [type] by [getType] and rendered as [s] by
    [stringify], each guard throws the [Error] made of its hint, an empty
    line, its reason, and the labelled value: the label ("Got" or
    "Received"), the type on a line of its own unless the value is [null],
    and [s] in the expected or the received color. *)
Theorem guards_complete_message (chalk : Chalk)
    (prettyFormat : value -> options -> completion string)
    (v : value) (matcherName : option string) (type s : string) :
  v <> VUndefined ->
  typeof v <> "number" ->
  getType v = Return type ->
  stringify prettyFormat v = Return s ->
  ensureNoExpected chalk prettyFormat v matcherName =
  Throw (Error
    (matcherHint chalk ("[.not]" ++ or_default matcherName "This") None (Some "")
     ++ LF ++ LF ++ "Matcher does not accept any arguments." ++ LF
     ++ "Got:" ++ (if is_null v then " " else LF ++ "  " ++ type ++ ": ")
     ++ green chalk s)) /\
  ensureActualIsNumber chalk prettyFormat v matcherName =
  Throw (Error
    (matcherHint chalk ("[.not]" ++ or_default matcherName "This matcher")
       None None
     ++ LF ++ LF ++ "Actual value must be a number." ++ LF
     ++ "Received:" ++ (if is_null v then " " else LF ++ "  " ++ type ++ ": ")
     ++ red chalk s)) /\
  ensureExpectedIsNumber chalk prettyFormat v matcherName =
  Throw (Error
    (matcherHint chalk ("[.not]" ++ or_default matcherName "This matcher")
       None None
     ++ LF ++ LF ++ "Expected value must be a number." ++ LF
     ++ "Got:" ++ (if is_null v then " " else LF ++ "  " ++ type ++ ": ")
     ++ green chalk s)).
Proof.
  intros Hdefined Hkind Htype Hs.
  assert (Hexpected : printExpected chalk prettyFormat v = Return (green chalk s))
    by (unfold printExpected; now rewrite Hs).
  assert (Hreceived : printReceived chalk prettyFormat v = Return (red chalk s))
    by (unfold printReceived; now rewrite Hs).
  pose proof (printWithType_Return "Got" v (printExpected chalk prettyFormat)
                type (green chalk s) Htype Hexpected) as Hgot.
  pose proof (printWithType_Return "Received" v (printReceived chalk prettyFormat)
                type (red chalk s) Htype Hreceived) as Hrec.
  rewrite (type_segment_shown v type Htype Hdefined) in Hgot, Hrec.
  split; [|split].
  - rewrite (ensureNoExpected_Throw chalk prettyFormat v matcherName _
               Hdefined Hgot).
    destruct (is_null v); reflexivity.
  - rewrite (ensureActualIsNumber_Throw chalk prettyFormat v matcherName _
               Hkind Hrec).
    destruct (is_null v); reflexivity.
  - rewrite (ensureExpectedIsNumber_Throw chalk prettyFormat v matcherName _
               Hkind Hgot).
    destruct (is_null v); reflexivity.
Qed.

Lemma guards_complete_message_witness :
  ensureNoExpected passThrough samplePrettyFormat VNull (Some ".toBeDefined")
  = Throw (Error
      ("expect(received)[.not].toBeDefined()" ++ LF ++ LF ++
       "Matcher does not accept any arguments." ++ LF ++ "Got: null")) /\
  ensureExpectedIsNumber passThrough samplePrettyFormat array_1_2 None
  = Throw (Error
      ("expect(received)[.not]This matcher(expected)" ++ LF ++ LF ++
       "Expected value must be a number." ++ LF ++
       "Got:" ++ LF ++ "  array: [1, 2]")).
Proof.
  assert (Hnull : VNull <> VUndefined) by discriminate.
  assert (Hnull' : typeof VNull <> "number") by discriminate.
  assert (Harray : array_1_2 <> VUndefined) by discriminate.
  assert (Harray' : typeof array_1_2 <> "number") by discriminate.
  split.
  - exact (proj1 (guards_complete_message passThrough samplePrettyFormat VNull
                    (Some ".toBeDefined") "null" "null"
                    Hnull Hnull' eq_refl eq_refl)).
  - exact (proj2 (proj2 (guards_complete_message passThrough samplePrettyFormat
                    array_1_2 None "array" "[1, 2]"
                    Harray Harray' eq_refl eq_refl))).
Defined.

(** ** [pluralize] off its table (lines 149-151) *)

(** X11: for a count that is no index of [NUMBERS] (a negative integer, an
    integer from 14 on, NaN or an infinity), the lookup is [undefined] and
    [pluralize] falls back to the count itself converted to a string by the
    language (the decimal digits of an integer of the safe range, "NaN",
    "Infinity", "-Infinity"), and the word is in the plural: for instance
    "-1 apples" and "NaN apples". *)
Theorem pluralize_off_table (beyond_safe : Z -> string) (word : string)
    (count : number) :
  match count with
  | Int z => (z < 0 \/ 14 <= z)%Z
  | _ => True
  end ->
  element_at NUMBERS count = None /\
  pluralize beyond_safe word count
  = Number_toString beyond_safe count ++ " " ++ word ++ "s" /\
  (forall z, count = Int z -> (Z.abs z <= 2 ^ 53)%Z ->
             Number_toString beyond_safe count = decimal z) /\
  (count = NaN -> Number_toString beyond_safe count = "NaN").
Proof.
  intro Hcount.
  assert (Hmissing : element_at NUMBERS count = None).
  { destruct count as [z| |negative]; try reflexivity.
    unfold element_at. simpl in Hcount.
    destruct (0 <=? z)%Z eqn:Hsign; [|reflexivity].
    apply Z.leb_le in Hsign.
    assert (Hrange : (z <? Z.of_nat (List.length NUMBERS))%Z = false)
      by (apply Z.ltb_ge; simpl List.length; lia).
    now rewrite Hrange. }
  assert (Hplural : number_strict_equal count (Int 1) = false).
  { destruct count as [z| |negative]; try reflexivity.
    simpl in *. apply Z.eqb_neq. lia. }
  split; [exact Hmissing|].
  split; [unfold pluralize; now rewrite Hmissing, Hplural|].
  split.
  - intros z -> Hsafe. now apply Number_toString_safe.
  - intros ->. reflexivity.
Qed.

Lemma pluralize_off_table_witness :
  (forall beyond_safe, pluralize beyond_safe "apple" (Int (-1)) = "-1 apples") /\
  (forall beyond_safe, pluralize beyond_safe "apple" NaN = "NaN apples") /\
  (forall beyond_safe,
     pluralize beyond_safe "apple" (Infinity true) = "-Infinity apples").
Proof.
  split; [|split]; intro beyond_safe.
  - exact (proj1 (proj2 (pluralize_off_table beyond_safe "apple" (Int (-1))
                           (or_introl (eq_refl : (-1 < 0)%Z))))).
  - exact (proj1 (proj2 (pluralize_off_table beyond_safe "apple" NaN I))).
  - exact (proj1 (proj2 (pluralize_off_table beyond_safe "apple"
                           (Infinity true) I))).
Defined.

(** ** The hint keeps the matcher name (lines 153-163) *)

Lemma append_cancel_left (a b c : string) : a ++ b = a ++ c -> b = c.
Proof.
  induction a as [|ch a IH]; simpl; intro H.
  - exact H.
  - injection H as H. exact (IH H).
Qed.

Lemma length_append (a b : string) :
  String.length (a ++ b) = (String.length a + String.length b)%nat.
Proof.
  induction a as [|ch a IH]; simpl; [reflexivity | now rewrite IH].
Qed.

Lemma append_cancel_right (a b c : string) : a ++ c = b ++ c -> a = b.
Proof.
  revert b. induction a as [|ch a IH]; intros [|ch' b] H; simpl in H.
  - reflexivity.
  - apply (f_equal String.length) in H. simpl in H.
    rewrite length_append in H. lia.
  - apply (f_equal String.length) in H. simpl in H.
    rewrite length_append in H. lia.
  - injection H as -> H. now rewrite (IH b H).
Qed.

(** X12: with pass-through colors the hint keeps the matcher name apart: for
    the same labels, two different matcher names never give the same hint,
    and the hint is longer than the hint of the empty name by exactly the
    length of the name. *)
Theorem matcherHint_determines_name (matcherName matcherName' : string)
    (received expected : option string) :
  matcherName <> matcherName' ->
  matcherHint passThrough matcherName received expected
  <> matcherHint passThrough matcherName' received expected /\
  String.length (matcherHint passThrough matcherName received expected)
  = (String.length (matcherHint passThrough "" received expected)
     + String.length matcherName)%nat.
Proof.
  intro Hdistinct.
  assert (Hplain : forall name,
            matcherHint passThrough name received expected
            = ("expect(" ++ match received with Some r => r | None => "received" end
               ++ ")") ++ name ++ "("
              ++ match expected with Some e => e | None => "expected" end ++ ")").
  { intro name.
    transitivity (matcherHint passThrough name
                    (Some match received with Some r => r | None => "received" end)
                    (Some match expected with Some e => e | None => "expected" end)).
    - destruct received, expected; reflexivity.
    - rewrite matcherHint_passThrough, !append_assoc. reflexivity. }
  split.
  - rewrite !Hplain. intro H.
    apply append_cancel_left in H.
    exact (Hdistinct (append_cancel_right _ _ _ H)).
  - rewrite !Hplain, !length_append. simpl. lia.
Qed.

Lemma matcherHint_determines_name_witness :
  matcherHint passThrough ".toBe" None None
  <> matcherHint passThrough "[.not].toBe" None None.
Proof.
  assert (Hdistinct : ".toBe" <> "[.not].toBe") by discriminate.
  exact (proj1 (matcherHint_determines_name ".toBe" "[.not].toBe" None None
                  Hdistinct)).
Defined.
